(** * PostGIS demo notebook (examples/PostGIS Demo.ipynb)

    A shallow embedding of the three code cells of the notebook that carry
    logic of their own:

    - the download cell (module [Fetcher]);
    - the load cell that fills the [fortune500] table (module [Loader]);
    - the Web-Mercator helpers [lon_to_mercx], [lat_to_mercy], [wkt_to_x]
      and [wkt_to_y] (module [Projector]).

    Numbers.  The helpers compute on [numpy.float64] values.  In module
    [Projector] they are modelled as exact real numbers extended with the
    IEEE special values (the two infinities and not-a-number): NumPy never
    raises on a zero divisor or on a logarithm outside its domain, it
    returns one of the special values.  Rounding, overflow and the sign of
    zero are not modelled there, so every statement about [Projector] is a
    statement of exact real arithmetic.  Module [Float64] has the same
    helpers on binary64 numbers with the rounding of IEEE 754 for the sum,
    the product and the quotient, and with [np.radians], [np.tan] and
    [np.log] left open; it shows where rounding departs from the exact
    values. *)

From Stdlib Require Import Reals Lra.
From Stdlib Require Floats.SpecFloat.
From stdpp Require Import gmap strings list.

(** ** Exceptions and outcomes of a cell *)

Module Py.

(** The exceptions the cells raise: the two of Python and the one of the
    database driver. *)
Inductive exn : Type :=
  | KeyError (key : string)
  | ValueError (msg : string)
  | ProgrammingError (msg : string).

(** How the run of a cell ends. *)
Inductive outcome : Type :=
  | Done
  | Raised (e : exn).

End Py.

(** ** The Projector: longitude / latitude to Web-Mercator *)

Module Projector.

Local Open Scope R_scope.

(** A [numpy.float64], without rounding. *)
Inductive float64 : Type :=
  | Num (r : R)
  | PInf
  | NInf
  | NaN.

Inductive sign : Type := Neg | Zero | Pos.

Definition sgn (r : R) : sign :=
  if Rlt_dec 0 r then Pos else if Rlt_dec r 0 then Neg else Zero.

Definition signed_inf (s : sign) : float64 :=
  match s with Pos => PInf | Neg => NInf | Zero => NaN end.

Definition sign_opp (s : sign) : sign :=
  match s with Pos => Neg | Neg => Pos | Zero => Zero end.

(** [a + b]: opposite infinities have no sum. *)
Definition fadd (a b : float64) : float64 :=
  match a, b with
  | NaN, _ | _, NaN => NaN
  | Num r, Num s => Num (r + s)
  | PInf, NInf | NInf, PInf => NaN
  | PInf, _ | _, PInf => PInf
  | NInf, _ | _, NInf => NInf
  end.

(** [a * b]: zero times an infinity is not a number. *)
Definition fmul (a b : float64) : float64 :=
  match a, b with
  | NaN, _ | _, NaN => NaN
  | Num r, Num s => Num (r * s)
  | Num r, PInf | PInf, Num r => signed_inf (sgn r)
  | Num r, NInf | NInf, Num r => signed_inf (sign_opp (sgn r))
  | PInf, PInf | NInf, NInf => PInf
  | PInf, NInf | NInf, PInf => NInf
  end.

(** [a / b]: a zero divisor gives an infinity for a non-zero dividend and
    not-a-number for a zero one; nothing is raised. *)
Definition fdiv (a b : float64) : float64 :=
  match a, b with
  | NaN, _ | _, NaN => NaN
  | Num r, Num s =>
      if Req_EM_T s 0 then signed_inf (sgn r) else Num (r / s)
  | Num _, (PInf | NInf) => Num 0
  | PInf, Num s => if Rlt_dec s 0 then NInf else PInf
  | NInf, Num s => if Rlt_dec s 0 then PInf else NInf
  | (PInf | NInf), (PInf | NInf) => NaN
  end.

(** [np.log]: minus infinity at zero, not a number below it. *)
Definition flog (a : float64) : float64 :=
  match a with
  | Num r =>
      match sgn r with
      | Pos => Num (ln r)
      | Zero => NInf
      | Neg => NaN
      end
  | PInf => PInf
  | NInf | NaN => NaN
  end.

(** [np.tan]: the real tangent; it has no value at a pole or at an
    infinity. *)
Definition ftan (a : float64) : float64 :=
  match a with
  | Num r => if Req_EM_T (cos r) 0 then NaN else Num (tan r)
  | PInf | NInf | NaN => NaN
  end.

(** [np.pi]. *)
Definition pi : float64 := Num PI.

(** [np.radians]: degrees times pi / 180. *)
Definition radians (a : float64) : float64 := fmul a (Num (PI / 180)).

(** The IEEE comparison [a < b]; not-a-number compares with nothing. *)
Definition flt (a b : float64) : Prop :=
  match a, b with
  | Num r, Num s => r < s
  | NInf, (Num _ | PInf) => True
  | Num _, PInf => True
  | _, _ => False
  end.

Declare Scope float64_scope.
Delimit Scope float64_scope with f64.
Bind Scope float64_scope with float64.
Infix "+" := fadd : float64_scope.
Infix "*" := fmul : float64_scope.
Infix "/" := fdiv : float64_scope.

(** Earth's radius, in meters. *)
Definition EARTH_RADIUS : float64 := Num 6378137.

Definition lon_to_mercx (lon : float64) : float64 :=
  let x := (EARTH_RADIUS * radians lon)%f64 in
  x.

Definition lat_to_mercy (lon lat : float64) : float64 :=
  let x := lon_to_mercx lon in
  let y :=
    (Num 180 / pi
     * flog (ftan (pi / Num 4 + lat * (pi / Num 180) / Num 2))
     * x / lon)%f64 in
  y.

(** What [shapely.wkt.loads] returns for a point: its two coordinates. *)
Record Point : Type := mkPoint { px : float64; py : float64 }.

Section Wkt.

(** The WKT parser of shapely; it is not part of the notebook. *)
Variable wkt_loads : string -> Point.

Definition wkt_to_x (pt : string) : float64 :=
  lon_to_mercx (px (wkt_loads pt)).

Definition wkt_to_y (pt : string) : float64 :=
  let point := wkt_loads pt in
  lat_to_mercy (px point) (py point).

End Wkt.

(** The reference spherical Mercator ordinate, [y = R * ln (tan (pi/4 + lat/2))]
    with the latitude in radians and no longitude term. *)
Definition mercator_y_reference (lat_rad : R) : R :=
  6378137 * ln (tan (PI / 4 + lat_rad / 2)).

(** The dividend of the last division of [lat_to_mercy]. *)
Definition mercy_dividend (lon lat : float64) : float64 :=
  (Num 180 / pi
   * flog (ftan (pi / Num 4 + lat * (pi / Num 180) / Num 2))
   * lon_to_mercx lon)%f64.

(** A parser to run the helpers with: every text is the point (1, 2). *)
Definition loads_const (_ : string) : Point := mkPoint (Num 1) (Num 2).

End Projector.

(** ** The Fetcher: the download cell *)

Module Fetcher.

Import Py.

Definition bytes : Type := list Byte.byte.

(** What a path of the local file system holds: nothing, a regular file or
    a directory.  Symbolic links and special files are not modelled. *)
Inductive node : Type :=
  | File (content : bytes)
  | Dir.

(** The part of the outside world the cell talks to.  [http_get url] is the
    body [requests.get(url).content], or [None] when [requests.get] raises;
    [open_fails path] says that [open(path, 'wb')] raises (permissions, a
    missing directory); [write_fails path data] is [Some n] when
    [fp.write(data)] raises after [n] bytes reached the file. *)
Record env : Type := mkEnv {
  http_get : string -> option bytes;
  open_fails : string -> bool;
  write_fails : string -> bytes -> option nat
}.

(** What the cell does that can be observed from outside. *)
Inductive event : Type :=
  | Printed (text : string)
  | HttpGet (url : string)
  | OpenedForWriting (path : string)
  | WroteBytes (path : string) (data : bytes).

Record world : Type := mkWorld {
  files : gmap string node;
  trace : list event
}.

Definition emit (e : event) (w : world) : world :=
  {| files := files w; trace := trace w ++ [e] |}.

Definition set_file (path : string) (content : bytes) (w : world) : world :=
  {| files := <[path := File content]> (files w); trace := trace w |}.

(** [os.path.isfile]: the path exists and is a regular file. *)
Definition isfile (w : world) (path : string) : bool :=
  match files w !! path with
  | Some (File _) => true
  | _ => false
  end.

(** [open(path, 'wb')]: raises on a directory or when the environment says
    so, and otherwise leaves an empty file. *)
Definition open_wb (E : env) (path : string) (w : world) : option world :=
  if open_fails E path then None
  else
    match files w !! path with
    | Some Dir => None
    | _ => Some (emit (OpenedForWriting path) (set_file path [] w))
    end.

Definition nl : string := String (Ascii.ascii_of_nat 10) EmptyString.

(** [repr] of a string that holds no quote, backslash or control
    character, as the two names of the cell do. *)
Definition repr (s : string) : string := "'" +:+ s +:+ "'".

Definition url : string :=
  "https://hifld-dhs-gii.opendata.arcgis.com/datasets/e277657582f74ed78dc2a503eae7fa2e_0.geojson".

Definition fpath : string := "fortune_500.geojson".

Definition download_error : exn :=
  ValueError "Download error. Check internet connection and URL.".

Definition write_error : exn :=
  ValueError "File write error. Check destination file path and permissions".

(** The download cell, for any pair of names. *)
Definition download (E : env) (url fpath : string) (w : world)
  : outcome * world :=
  if isfile w fpath then
    (Done, emit (Printed (repr fpath +:+ " already exists: skipping download." +:+ nl)) w)
  else
    let w := emit (Printed ("Downloading data from " +:+ repr url +:+ "...")) w in
    let w := emit (HttpGet url) w in
    match http_get E url with
    | None => (Raised download_error, w)
    | Some content =>
        match open_wb E fpath w with
        | None => (Raised write_error, w)
        | Some w =>
            let w := emit (Printed "Writing data...") w in
            match write_fails E fpath content with
            | Some n =>
                (Raised write_error, set_file fpath (take n content) w)
            | None =>
                let w := emit (WroteBytes fpath content)
                              (set_file fpath content w) in
                (Done, emit (Printed ("Success: " +:+ repr fpath +:+ nl)) w)
            end
        end
    end.

(** The cell as the notebook runs it. *)
Definition download_cell (E : env) (w : world) : outcome * world :=
  download E url fpath w.

Definition is_http_get (e : event) : bool :=
  match e with HttpGet _ => true | _ => false end.

(** How many network retrievals a trace holds. *)
Definition http_gets (t : list event) : nat :=
  length (filter (fun e => is_http_get e = true) t).

(** Environments and worlds to run the cell in. *)
Definition body_sample : bytes := [Byte.x7b; Byte.x7d].

Definition env_offline : env :=
  {| http_get := fun _ => None;
     open_fails := fun _ => false;
     write_fails := fun _ _ => None |}.

Definition env_online : env :=
  {| http_get := fun _ => Some body_sample;
     open_fails := fun _ => false;
     write_fails := fun _ _ => None |}.

Definition env_disk_full : env :=
  {| http_get := fun _ => Some body_sample;
     open_fails := fun _ => false;
     write_fails := fun _ _ => Some 1%nat |}.

Definition world_empty : world := {| files := ∅; trace := [] |}.

Definition world_with_file : world :=
  {| files := {[ fpath := File body_sample ]}; trace := [] |}.

End Fetcher.

(** ** The Loader: the cell that fills the table *)

Module Loader.

Import Py.

(** A computation that returns or raises. *)
Inductive result (A : Type) : Type :=
  | Ok (a : A)
  | Raise (e : exn).
Arguments Ok {A} a.
Arguments Raise {A} e.

Definition bind {A B : Type} (r : result A) (k : A -> result B) : result B :=
  match r with
  | Ok a => k a
  | Raise e => Raise e
  end.

Notation "'let!' x ':=' e 'in' k" := (bind e (fun x => k))
  (at level 10, x pattern, e at level 200, k at level 200).

Inductive coltype : Type :=
  | GeometryPoint (srid : Z)
  | Text.

Definition table_name : string := "fortune500".

(** The columns of [create table fortune500 (...)], in their order. *)
Definition table_columns : list (string * coltype) :=
  [ ("location", GeometryPoint 4326); ("name", Text); ("address", Text);
    ("city", Text); ("state", Text); ("zip_code", Text); ("county", Text);
    ("directions", Text) ].

Section Values.

(** The Python objects that [json.load] puts in the coordinates and the
    properties, and [py_format v], the text of ['{}'.format(v)]. *)
Variable value : Type.
Variable py_format : value -> string.

Record Feature : Type := mkFeature {
  coordinates : list value;
  properties : gmap string value
}.

Record FeatureCollection : Type := mkCollection {
  features : list Feature
}.

(** A value of an [insert]: [St_GeomFromText] of a text, or a parameter
    passed as it is. *)
Inductive sqlval : Type :=
  | GeomFromText (ewkt : string)
  | Param (v : value).

Inductive stmt : Type :=
  | DropTableIfExists (name : string)
  | CreateTable (name : string) (cols : list (string * coltype))
  | InsertValues (name : string) (vals : list sqlval).

Record table : Type := mkTable {
  columns : list (string * coltype);
  rows : list (list sqlval)
}.

(** [cursor.execute] on the tables the transaction sees. *)
Definition execute (s : stmt) (db : gmap string table)
  : result (gmap string table) :=
  match s with
  | DropTableIfExists name => Ok (delete name db)
  | CreateTable name cols =>
      match db !! name with
      | Some _ => Raise (ProgrammingError "relation already exists")
      | None => Ok (<[name := mkTable cols []]> db)
      end
  | InsertValues name vals =>
      match db !! name with
      | None => Raise (ProgrammingError "relation does not exist")
      | Some t =>
          if Nat.eqb (length vals) (length (columns t)) then
            Ok (<[name := mkTable (columns t) (rows t ++ [vals])]> db)
          else Raise (ProgrammingError "wrong number of values")
      end
  end.

(** [lon, lat = coords]. *)
Definition unpack2 (coords : list value) : result (value * value) :=
  match coords with
  | [lon; lat] => Ok (lon, lat)
  | [] => Raise (ValueError "not enough values to unpack (expected 2, got 0)")
  | [_] => Raise (ValueError "not enough values to unpack (expected 2, got 1)")
  | _ => Raise (ValueError "too many values to unpack (expected 2)")
  end.

(** [props[key]]. *)
Definition getitem (props : gmap string value) (key : string)
  : result value :=
  match props !! key with
  | Some v => Ok v
  | None => Raise (KeyError key)
  end.

(** The values one feature is inserted with. *)
Definition feature_values (feature : Feature) : result (list sqlval) :=
  let! (lon, lat) := unpack2 (coordinates feature) in
  let props := properties feature in
  let! zip_code := getitem props "ZIP" in
  let! state := getitem props "STATE" in
  let! name := getitem props "NAME" in
  let! address := getitem props "ADDRESS" in
  let! county := getitem props "COUNTY" in
  let! city := getitem props "CITY" in
  let! directions := getitem props "DIRECTIONS" in
  Ok [ GeomFromText
         ("SRID=4326;POINT(" +:+ py_format lon +:+ " " +:+ py_format lat +:+ ")");
       Param name; Param address; Param city; Param state;
       Param zip_code; Param county; Param directions ].

(** The body of the loop, then the loop. *)
Definition insert_feature (feature : Feature) (db : gmap string table)
  : result (gmap string table) :=
  let! vals := feature_values feature in
  execute (InsertValues table_name vals) db.

Fixpoint insert_features (fs : list Feature) (db : gmap string table)
  : result (gmap string table) :=
  match fs with
  | [] => Ok db
  | feature :: rest =>
      let! db := insert_feature feature db in
      insert_features rest db
  end.

(** The values of all the features, in their order; the first feature
    that raises decides the exception. *)
Fixpoint all_values (fs : list Feature) : result (list (list sqlval)) :=
  match fs with
  | [] => Ok []
  | feature :: rest =>
      let! vals := feature_values feature in
      let! more := all_values rest in
      Ok (vals :: more)
  end.

(** The statements of the cell, run inside one transaction. *)
Definition transaction (data : FeatureCollection) (db : gmap string table)
  : result (gmap string table) :=
  let! db := execute (DropTableIfExists table_name) db in
  let! db := execute (CreateTable table_name table_columns) db in
  insert_features (features data) db.

(** The cell: the store changes at [conn.commit()] only; an exception
    leaves the transaction uncommitted. *)
Definition load (data : FeatureCollection) (store : gmap string table)
  : outcome * gmap string table :=
  match transaction data store with
  | Ok db => (Done, db)
  | Raise e => (Raised e, store)
  end.

(** The position of a column in a table, and the value row [i] holds in
    it ([select col from t], row [i]). *)
Fixpoint column_index (cols : list (string * coltype)) (col : string)
  : option nat :=
  match cols with
  | [] => None
  | (c, _) :: rest =>
      if String.eqb c col then Some 0%nat
      else option_map S (column_index rest col)
  end.

Definition cell (t : table) (i : nat) (col : string) : option sqlval :=
  match column_index (columns t) col, rows t !! i with
  | Some j, Some row => row !! j
  | _, _ => None
  end.

(** The features the cell loads without an exception. *)
Definition well_formed (feature : Feature) : Prop :=
  length (coordinates feature) = 2%nat /\
  forall key, key ∈ ["ZIP"; "STATE"; "NAME"; "ADDRESS"; "COUNTY"; "CITY";
                     "DIRECTIONS"] ->
    is_Some (properties feature !! key).

End Values.

Arguments mkFeature {value} _ _.
Arguments coordinates {value} _.
Arguments properties {value} _.
Arguments mkCollection {value} _.
Arguments features {value} _.
Arguments GeomFromText {value} _.
Arguments Param {value} _.
Arguments DropTableIfExists {value} _.
Arguments CreateTable {value} _ _.
Arguments InsertValues {value} _ _.
Arguments mkTable {value} _ _.
Arguments columns {value} _.
Arguments rows {value} _.
Arguments execute {value} _ _.
Arguments unpack2 {value} _.
Arguments getitem {value} _ _.
Arguments feature_values {value} _ _.
Arguments insert_feature {value} _ _ _.
Arguments insert_features {value} _ _ _.
Arguments all_values {value} _ _.
Arguments transaction {value} _ _ _.
Arguments load {value} _ _ _.
Arguments cell {value} _ _ _.
Arguments well_formed {value} _.

(** A collection of two features to run the cell on; its values are texts
    and are formatted as they are. *)
Definition chicago : Feature string :=
  mkFeature ["-87.6298"; "41.8781"]
    (<["ZIP" := "60601"]> (<["STATE" := "IL"]> (<["NAME" := "ACME"]>
     (<["ADDRESS" := "1 MAIN ST"]> (<["COUNTY" := "COOK"]>
     (<["CITY" := "CHICAGO"]> (<["DIRECTIONS" := "NONE"]> ∅))))))).

Definition omaha : Feature string :=
  mkFeature ["-95.9345"; "41.2565"]
    (<["ZIP" := "68102"]> (<["STATE" := "NE"]> (<["NAME" := "EMCA"]>
     (<["ADDRESS" := "2 FARNAM ST"]> (<["COUNTY" := "DOUGLAS"]>
     (<["CITY" := "OMAHA"]> (<["DIRECTIONS" := "WEST"]> ∅))))))).

Definition sample_data : FeatureCollection string :=
  mkCollection [chicago; omaha].

Definition format_text (s : string) : string := s.

(** The keys of the properties, in the order the cell reads them. *)
Definition read_order : list string :=
  ["ZIP"; "STATE"; "NAME"; "ADDRESS"; "COUNTY"; "CITY"; "DIRECTIONS"].

(** The first key, in that order, that a mapping does not have. *)
Definition first_missing {value : Type} (props : gmap string value)
  : option string :=
  List.find (fun key => match props !! key with None => true | Some _ => false end)
    read_order.

(** Features that are not as the cell expects them: one without a name and
    a city, one with an altitude, and one with a property the cell does not
    read. *)
Definition nameless : Feature string :=
  mkFeature ["-87.6298"; "41.8781"]
    (<["ZIP" := "60601"]> (<["STATE" := "IL"]>
     (<["ADDRESS" := "1 MAIN ST"]> (<["COUNTY" := "COOK"]>
     (<["DIRECTIONS" := "NONE"]> ∅))))).

Definition with_altitude : Feature string :=
  mkFeature ["-87.6298"; "41.8781"; "181"] (properties chicago).

Definition chicago_ranked : Feature string :=
  mkFeature (coordinates chicago) (<["RANK" := "7"]> (properties chicago)).

End Loader.

(** ** The Projector on binary64 numbers *)

Module Float64.

Import SpecFloat.

Definition prec : Z := 53.
Definition emax : Z := 1024.

(** A binary64 number, and the three operations of the helpers, rounded to
    nearest-even. *)
Definition f64 : Type := spec_float.

Definition add (a b : f64) : f64 := SFadd prec emax a b.
Definition mul (a b : f64) : f64 := SFmul prec emax a b.
Definition div (a b : f64) : f64 := SFdiv prec emax a b.

(** The comparison [a < b]. *)
Definition lt (a b : f64) : bool := SFltb a b.

(** The binary64 number of an integer. *)
Definition of_int (z : Z) : f64 := binary_normalize prec emax z 0 false.

(** [np.pi], 0x1.921fb54442d18p+1. *)
Definition pi : f64 := S754_finite false 7074237752028440 (-51).

(** Earth's radius, in meters. *)
Definition EARTH_RADIUS : f64 := of_int 6378137.

Section Libm.

(** The three functions of NumPy the helpers call; their values are those
    of the C library and are left open. *)
Variables np_radians np_tan np_log : f64 -> f64.

Definition lon_to_mercx (lon : f64) : f64 :=
  let x := mul EARTH_RADIUS (np_radians lon) in
  x.

Definition lat_to_mercy (lon lat : f64) : f64 :=
  let x := lon_to_mercx lon in
  let y :=
    div (mul (mul (div (of_int 180) pi)
                  (np_log (np_tan (add (div pi (of_int 4))
                                       (div (mul lat (div pi (of_int 180)))
                                            (of_int 2))))))
             x)
        lon in
  y.

End Libm.

(** The latitude 41.8781, 0x1.4f06594af4f0ep+5, and the binary64 number
    next above it, 0x1.4f06594af4f0fp+5 (41.87810000000001). *)
Definition lat_chicago : f64 := S754_finite false 5893818611093262 (-47).
Definition lat_chicago_next : f64 := S754_finite false 5893818611093263 (-47).

End Float64.

(** * Properties *)

(** ** Projector *)

Section ProjectorFacts.

Import Projector.
Local Open Scope R_scope.

Lemma sgn_pos (r : R) : 0 < r -> sgn r = Pos.
Proof. intros H. unfold sgn. destruct (Rlt_dec 0 r); [reflexivity | contradiction]. Qed.

Lemma sgn_zero : sgn 0 = Zero.
Proof.
  unfold sgn. destruct (Rlt_dec 0 0) as [H | _]; [lra |].
  reflexivity.
Qed.

Lemma fdiv_num (a b : R) : b <> 0 -> fdiv (Num a) (Num b) = Num (a / b).
Proof. intros H. simpl. destruct (Req_EM_T b 0); [contradiction | reflexivity]. Qed.

Lemma fdiv_zero_zero : fdiv (Num 0) (Num 0) = NaN.
Proof.
  simpl. destruct (Req_EM_T 0 0) as [_ | H]; [| contradiction].
  rewrite sgn_zero. reflexivity.
Qed.

Lemma ftan_num (r : R) : cos r <> 0 -> ftan (Num r) = Num (tan r).
Proof. intros H. simpl. destruct (Req_EM_T (cos r) 0); [contradiction | reflexivity]. Qed.

Lemma flog_num (r : R) : 0 < r -> flog (Num r) = Num (ln r).
Proof. intros H. simpl. rewrite (sgn_pos r H). reflexivity. Qed.

Lemma PI_neq_0 : PI <> 0.
Proof. pose proof PI_RGT_0. lra. Qed.

(** The argument of the tangent, for a latitude in degrees. *)
Lemma tan_argument (lat : R) :
  fadd (fdiv pi (Num 4)) (fdiv (fmul (Num lat) (fdiv pi (Num 180))) (Num 2))
  = Num (PI / 4 + lat * (PI / 180) / 2).
Proof.
  unfold pi. rewrite !fdiv_num by lra. cbn [fmul].
  rewrite fdiv_num by lra. reflexivity.
Qed.

Lemma tan_argument_range (lat : R) :
  -90 < lat < 90 ->
  0 < PI / 4 + lat * (PI / 180) / 2 < PI / 2.
Proof. intros [Hlo Hhi]. pose proof PI_RGT_0. split; nra. Qed.

(** For a non-zero longitude and a latitude strictly between the poles,
    every step of [lat_to_mercy] is a real number and the longitude
    cancels. *)
Lemma lat_to_mercy_value (lon lat : R) :
  lon <> 0 -> -90 < lat < 90 ->
  lat_to_mercy (Num lon) (Num lat)
  = Num (6378137 * ln (tan (PI / 4 + lat * (PI / 180) / 2))).
Proof.
  intros Hlon Hlat.
  destruct (tan_argument_range lat Hlat) as [Hlo Hhi].
  pose proof PI_RGT_0 as Hpi.
  unfold lat_to_mercy. rewrite tan_argument.
  rewrite ftan_num.
  2:{ apply Rgt_not_eq, cos_gt_0; lra. }
  rewrite flog_num by (apply tan_gt_0; lra).
  unfold pi. rewrite fdiv_num by lra.
  unfold lon_to_mercx, EARTH_RADIUS, radians. simpl fmul.
  rewrite fdiv_num by exact Hlon.
  f_equal. field. split; lra.
Qed.

Lemma mercy_dividend_spec (lon lat : float64) :
  lat_to_mercy lon lat = fdiv (mercy_dividend lon lat) lon.
Proof. reflexivity. Qed.

Lemma lon_to_mercx_zero : lon_to_mercx (Num 0) = Num 0.
Proof.
  unfold lon_to_mercx, EARTH_RADIUS, radians. simpl. f_equal. lra.
Qed.

Lemma fmul_zero_r (a : float64) : fmul a (Num 0) = Num 0 \/ fmul a (Num 0) = NaN.
Proof.
  destruct a as [r | | |]; simpl; rewrite ?sgn_zero; simpl; auto.
  left. f_equal. lra.
Qed.

Lemma lat_to_mercy_at_zero (lat : float64) : lat_to_mercy (Num 0) lat = NaN.
Proof.
  rewrite mercy_dividend_spec. unfold mercy_dividend.
  rewrite lon_to_mercx_zero.
  destruct (fmul_zero_r
              (fmul (fdiv (Num 180) pi)
                 (flog (ftan (fadd (fdiv pi (Num 4))
                    (fdiv (fmul lat (fdiv pi (Num 180))) (Num 2)))))))
    as [H | H]; rewrite H; [apply fdiv_zero_zero | reflexivity].
Qed.

(** C1: for every longitude, [lon_to_mercx] returns 6378137 times the
    longitude in radians; the planar x of a point is therefore linear in its
    longitude with slope 6378137 * pi / 180, whatever its latitude is (the
    longitude zero included). *)
Theorem lon_to_mercx_linear :
  (forall lon : R,
      lon_to_mercx (Num lon) = fmul (Num 6378137) (radians (Num lon)) /\
      radians (Num lon) = Num (lon * (PI / 180)) /\
      lon_to_mercx (Num lon) = Num (6378137 * PI / 180 * lon)) /\
  (forall (wkt_loads : string -> Point) (pt1 pt2 : string) (lon : R)
          (lat1 lat2 : float64),
      wkt_loads pt1 = mkPoint (Num lon) lat1 ->
      wkt_loads pt2 = mkPoint (Num lon) lat2 ->
      wkt_to_x wkt_loads pt1 = Num (6378137 * PI / 180 * lon) /\
      wkt_to_x wkt_loads pt2 = wkt_to_x wkt_loads pt1).
Proof.
  assert (Hx : forall lon : R,
             lon_to_mercx (Num lon) = Num (6378137 * PI / 180 * lon)).
  { intros lon. unfold lon_to_mercx, EARTH_RADIUS, radians. simpl.
    f_equal. field. }
  split.
  - intros lon. repeat split; [exact (Hx lon)].
  - intros loads pt1 pt2 lon lat1 lat2 H1 H2.
    unfold wkt_to_x. rewrite H1, H2. simpl px. rewrite Hx. split; reflexivity.
Qed.

Lemma lon_to_mercx_linear_witness :
  wkt_to_x loads_const "POINT(1 2)" = Num (6378137 * PI / 180 * 1).
Proof.
  exact (proj1 (proj2 lon_to_mercx_linear loads_const "POINT(1 2)" "POINT(1 2)"
                  1 (Num 2) (Num 2) eq_refl eq_refl)).
Defined.

(** C2: for a longitude other than zero and a latitude strictly between
    -90 and 90 degrees, [lat_to_mercy] is the reference spherical Mercator
    ordinate R * ln (tan (pi/4 + lat/2)) of the latitude in radians, with
    R = 6378137: the longitude cancels. *)
Theorem lat_to_mercy_is_reference (lon lat : R) :
  lon <> 0 -> -90 < lat < 90 ->
  lat_to_mercy (Num lon) (Num lat)
  = Num (mercator_y_reference (lat * (PI / 180))).
Proof.
  intros Hlon Hlat. rewrite lat_to_mercy_value by assumption. reflexivity.
Qed.

Lemma lat_to_mercy_is_reference_witness :
  lat_to_mercy (Num 1) (Num 0) = Num (mercator_y_reference (0 * (PI / 180))).
Proof. apply (lat_to_mercy_is_reference 1 0); lra. Defined.






(** C5, amended: in exact real arithmetic (no rounding), for a fixed
    longitude other than zero, of either sign, [lat_to_mercy] is strictly
    increasing in the latitude over the open interval (-90, 90). *)
Theorem lat_to_mercy_increasing (lon lat1 lat2 : R) :
  lon <> 0 -> -90 < lat1 -> lat1 < lat2 -> lat2 < 90 ->
  flt (lat_to_mercy (Num lon) (Num lat1)) (lat_to_mercy (Num lon) (Num lat2)).
Proof.
  intros Hlon H1 H12 H2.
  rewrite !lat_to_mercy_value by (assumption || lra).
  simpl.
  destruct (tan_argument_range lat1 ltac:(lra)) as [Hlo1 Hhi1].
  destruct (tan_argument_range lat2 ltac:(lra)) as [Hlo2 Hhi2].
  pose proof PI_RGT_0 as Hpi.
  apply Rmult_lt_compat_l; [lra |].
  apply ln_increasing; [apply tan_gt_0; lra |].
  apply tan_increasing; [lra | nra | lra].
Qed.

Lemma lat_to_mercy_increasing_witness :
  flt (lat_to_mercy (Num (-1)) (Num 10)) (lat_to_mercy (Num (-1)) (Num 20)).
Proof. apply (lat_to_mercy_increasing (-1) 10 20); lra. Defined.

End ProjectorFacts.

(** ** Projector, with rounding *)

Section Float64Facts.

Import SpecFloat.

Lemma SFltb_irrefl (x : spec_float) : SFltb x x = false.
Proof.
  unfold SFltb. destruct x as [s | s | | s m e]; simpl;
    try (destruct s; reflexivity); try reflexivity.
  rewrite Z.compare_refl, Pos.compare_cont_refl. destruct s; reflexivity.
Qed.

(** The two latitudes give the tangent the same argument. *)
Lemma tan_argument_tie :
  Float64.add (Float64.div Float64.pi (Float64.of_int 4))
    (Float64.div
       (Float64.mul Float64.lat_chicago_next
          (Float64.div Float64.pi (Float64.of_int 180)))
       (Float64.of_int 2))
  = Float64.add (Float64.div Float64.pi (Float64.of_int 4))
      (Float64.div
         (Float64.mul Float64.lat_chicago
            (Float64.div Float64.pi (Float64.of_int 180)))
         (Float64.of_int 2)).
Proof. vm_compute. reflexivity. Qed.

(** C5, as stated, fails on binary64 numbers: 41.8781 and the number next
    above it lie strictly between -90 and 90 and are in order, but their
    tangent arguments round to the same number, so that, whatever the
    values of [np.radians], [np.tan] and [np.log] and whatever the
    longitude, the second ordinate is not above the first. *)
Lemma lat_to_mercy_float64_tie :
  Float64.lt Float64.lat_chicago Float64.lat_chicago_next = true /\
  Float64.lt (Float64.of_int (-90)) Float64.lat_chicago = true /\
  Float64.lt Float64.lat_chicago_next (Float64.of_int 90) = true /\
  ~ (exists (np_radians np_tan np_log : Float64.f64 -> Float64.f64)
            (lon : Float64.f64),
        Float64.lt
          (Float64.lat_to_mercy np_radians np_tan np_log lon
             Float64.lat_chicago)
          (Float64.lat_to_mercy np_radians np_tan np_log lon
             Float64.lat_chicago_next)
        = true).
Proof.
  split; [vm_compute; reflexivity |].
  split; [vm_compute; reflexivity |].
  split; [vm_compute; reflexivity |].
  intros (np_radians & np_tan & np_log & lon & Hlt).
  unfold Float64.lat_to_mercy in Hlt. rewrite tan_argument_tie in Hlt.
  unfold Float64.lt in Hlt. rewrite SFltb_irrefl in Hlt. discriminate.
Qed.

End Float64Facts.

(** ** Fetcher *)

Section FetcherFacts.

Import Py Fetcher.

Lemma http_gets_app (t1 t2 : list event) :
  http_gets (t1 ++ t2) = (http_gets t1 + http_gets t2)%nat.
Proof. unfold http_gets. rewrite filter_app, length_app. reflexivity. Qed.

Lemma isfile_false_lookup (w : world) (path : string) :
  isfile w path = false ->
  files w !! path = None \/ files w !! path = Some Dir.
Proof.
  unfold isfile. destruct (files w !! path) as [[c |] |]; intros H;
    [discriminate | right | left]; reflexivity.
Qed.

(** C6: when the local path is an existing file, the cell returns after
    one printed line: no network retrieval is made and the files are what
    they were, whatever the environment would have answered. *)
Theorem download_skips_existing_file
  (E : env) (url fpath : string) (w : world) :
  isfile w fpath = true ->
  exists w',
    download E url fpath w = (Done, w') /\
    files w' = files w /\
    trace w' =
      trace w ++ [Printed (repr fpath +:+ " already exists: skipping download." +:+ nl)] /\
    http_gets (trace w') = http_gets (trace w) /\
    download E url fpath w' = (Done, emit (Printed (repr fpath +:+ " already exists: skipping download." +:+ nl)) w').
Proof.
  intros Hfile. eexists. unfold download at 1. rewrite Hfile.
  split; [reflexivity |]. split; [reflexivity |]. split; [reflexivity |].
  split.
  - simpl. rewrite http_gets_app. simpl. unfold http_gets at 2. simpl. lia.
  - unfold download. unfold isfile in *. simpl. rewrite Hfile. reflexivity.
Qed.

Lemma download_skips_existing_file_witness :
  exists w',
    download env_online url fpath world_with_file = (Done, w') /\
    files w' = files world_with_file /\
    trace w' =
      trace world_with_file
      ++ [Printed (repr fpath +:+ " already exists: skipping download." +:+ nl)] /\
    http_gets (trace w') = http_gets (trace world_with_file) /\
    download env_online url fpath w' = (Done, emit (Printed (repr fpath +:+ " already exists: skipping download." +:+ nl)) w').
Proof.
  apply (download_skips_existing_file env_online url fpath world_with_file).
  vm_compute. reflexivity.
Defined.

(** C9: when the local path is not an existing file, the cell makes one
    network retrieval.  If it fails the cell raises the download error and
    no file changes; if opening or writing the local file fails the cell
    raises the write error; otherwise the cell returns and the local path
    holds the whole response body.  The two errors are different, and
    there is never a second retrieval. *)
Theorem download_outcomes (E : env) (url fpath : string) (w : world) :
  isfile w fpath = false ->
  download_error <> write_error /\
  http_gets (trace (snd (download E url fpath w))) = S (http_gets (trace w)) /\
  (http_get E url = None ->
     fst (download E url fpath w) = Raised download_error /\
     files (snd (download E url fpath w)) = files w) /\
  (forall body, http_get E url = Some body ->
     (open_fails E fpath = true \/ files w !! fpath = Some Dir) ->
     fst (download E url fpath w) = Raised write_error /\
     files (snd (download E url fpath w)) = files w) /\
  (forall body n, http_get E url = Some body ->
     open_fails E fpath = false -> files w !! fpath = None ->
     write_fails E fpath body = Some n ->
     fst (download E url fpath w) = Raised write_error) /\
  (forall body, http_get E url = Some body ->
     open_fails E fpath = false -> files w !! fpath = None ->
     write_fails E fpath body = None ->
     fst (download E url fpath w) = Done /\
     files (snd (download E url fpath w)) = <[fpath := File body]> (files w) /\
     files (snd (download E url fpath w)) !! fpath = Some (File body)).
Proof.
  intros Hfile.
  split; [discriminate |].
  split.
  { unfold download. rewrite Hfile.
    destruct (http_get E url) as [body |]; simpl.
    - unfold open_wb. destruct (open_fails E fpath); simpl.
      + rewrite !http_gets_app. unfold http_gets at 2 3. simpl. lia.
      + destruct (files w !! fpath) as [[c |] |]; simpl;
          try destruct (write_fails E fpath body); simpl;
          rewrite !http_gets_app; unfold http_gets at 2 3; simpl;
          rewrite ?http_gets_app; simpl; unfold http_gets; simpl; lia.
    - rewrite !http_gets_app. unfold http_gets at 2 3. simpl. lia. }
  split; [| split; [| split]].
  - intros Hget. unfold download. rewrite Hfile, Hget. split; reflexivity.
  - intros body Hget Hopen. unfold download. rewrite Hfile, Hget.
    assert (Hnone : forall w0, files w0 = files w -> open_wb E fpath w0 = None).
    { intros w0 Hw0. unfold open_wb. rewrite Hw0.
      destruct Hopen as [-> | ->]; [reflexivity |].
      destruct (open_fails E fpath); reflexivity. }
    rewrite Hnone by reflexivity. split; reflexivity.
  - intros body n Hget Hopen Hnew Hwrite. unfold download.
    rewrite Hfile, Hget. unfold open_wb. simpl. rewrite Hopen, Hnew. simpl.
    rewrite Hwrite. reflexivity.
  - intros body Hget Hopen Hnew Hwrite. unfold download.
    rewrite Hfile, Hget. unfold open_wb. simpl. rewrite Hopen, Hnew. simpl.
    rewrite Hwrite. simpl. rewrite insert_insert_eq.
    split; [reflexivity |]. split; [reflexivity |]. apply lookup_insert_eq.
Qed.

Lemma download_outcomes_witness :
  fst (download env_offline url fpath world_empty) = Raised download_error /\
  fst (download env_disk_full url fpath world_empty) = Raised write_error /\
  fst (download env_online url fpath world_empty) = Done /\
  files (snd (download env_online url fpath world_empty)) !! fpath
  = Some (File body_sample).
Proof.
  pose proof (download_outcomes env_offline url fpath world_empty eq_refl)
    as (_ & _ & Hoff & _).
  pose proof (download_outcomes env_disk_full url fpath world_empty eq_refl)
    as (_ & _ & _ & _ & Hfull & _).
  pose proof (download_outcomes env_online url fpath world_empty eq_refl)
    as (_ & _ & _ & _ & _ & Hon).
  split; [exact (proj1 (Hoff eq_refl)) |].
  split; [exact (Hfull body_sample 1%nat eq_refl eq_refl eq_refl eq_refl) |].
  destruct (Hon body_sample eq_refl eq_refl eq_refl eq_refl) as (Hd & _ & Hf).
  split; [exact Hd | exact Hf].
Defined.

End FetcherFacts.

(** ** Loader *)

Section LoaderFacts.

Import Py Loader.

Context {value : Type} (py_format : value -> string).

Implicit Types (feature : Feature value) (fs : list (Feature value)).
Implicit Types (data : FeatureCollection value).
Implicit Types (db store : gmap string (table value)).

Lemma feature_values_length feature (vals : list (sqlval value)) :
  feature_values py_format feature = Ok vals -> length vals = 8%nat.
Proof.
  unfold feature_values, unpack2, getitem.
  destruct (coordinates feature) as [| lon [| lat [| ? ?]]]; simpl;
    try discriminate.
  repeat (match goal with
          | |- context [properties feature !! ?k] =>
              destruct (properties feature !! k); simpl; try discriminate
          end).
  intros H. injection H as <-. reflexivity.
Qed.

Lemma all_values_length fs (vs : list (list (sqlval value))) :
  all_values py_format fs = Ok vs -> length vs = length fs.
Proof.
  revert vs. induction fs as [| feature rest IH]; intros vs; simpl.
  - intros H. injection H as <-. reflexivity.
  - destruct (feature_values py_format feature) as [vals | e]; simpl;
      [| discriminate].
    destruct (all_values py_format rest) as [more | e]; simpl;
      [| discriminate].
    intros H. injection H as <-. simpl. f_equal. apply IH. reflexivity.
Qed.

Lemma all_values_lookup fs (vs : list (list (sqlval value))) :
  all_values py_format fs = Ok vs ->
  forall i, feature_values py_format <$> fs !! i = Ok <$> vs !! i.
Proof.
  revert vs. induction fs as [| feature rest IH]; intros vs; simpl.
  - intros H i. injection H as <-. reflexivity.
  - destruct (feature_values py_format feature) as [vals | e] eqn:Hv; simpl;
      [| discriminate].
    destruct (all_values py_format rest) as [more | e]; simpl;
      [| discriminate].
    intros H i. injection H as <-. destruct i as [| i]; simpl.
    + rewrite Hv. reflexivity.
    + apply IH. reflexivity.
Qed.

(** The loop appends the values of the features to the table, in their
    order, and raises what the first bad feature raises. *)
Lemma insert_features_spec fs db cols (old : list (list (sqlval value))) :
  db !! table_name = Some (mkTable cols old) ->
  length cols = 8%nat ->
  insert_features py_format fs db
  = bind (all_values py_format fs)
      (fun vs => Ok (<[table_name := mkTable cols (old ++ vs)]> db)).
Proof.
  revert db old. induction fs as [| feature rest IH]; intros db old Hdb Hcols.
  - simpl. rewrite app_nil_r, insert_id by exact Hdb. reflexivity.
  - simpl. unfold insert_feature.
    destruct (feature_values py_format feature) as [vals | e] eqn:Hv; simpl;
      [| reflexivity].
    rewrite Hdb. simpl.
    rewrite (feature_values_length _ _ Hv), Hcols. simpl.
    rewrite (IH _ (old ++ [vals])); [| apply lookup_insert_eq | exact Hcols].
    destruct (all_values py_format rest) as [more | e]; simpl;
      [| reflexivity].
    rewrite insert_insert_eq, <- app_assoc. reflexivity.
Qed.

Lemma transaction_spec data db :
  transaction py_format data db
  = bind (all_values py_format (features data))
      (fun vs => Ok (<[table_name := mkTable table_columns vs]> db)).
Proof.
  unfold transaction. simpl. rewrite lookup_delete_eq. simpl.
  rewrite (insert_features_spec _ _ table_columns []);
    [| apply lookup_insert_eq | reflexivity].
  destruct (all_values py_format (features data)) as [vs | e]; simpl;
    [| reflexivity].
  rewrite insert_insert_eq, insert_delete_eq. reflexivity.
Qed.

Lemma load_spec data store :
  load py_format data store
  = match all_values py_format (features data) with
    | Ok vs => (Done, <[table_name := mkTable table_columns vs]> store)
    | Raise e => (Raised e, store)
    end.
Proof.
  unfold load. rewrite transaction_spec.
  destruct (all_values py_format (features data)); reflexivity.
Qed.

Lemma well_formed_values feature :
  well_formed feature -> exists vals, feature_values py_format feature = Ok vals.
Proof.
  intros [Hlen Hkeys]. unfold feature_values, unpack2, getitem.
  destruct (coordinates feature) as [| lon [| lat [| ? ?]]]; simpl in Hlen;
    try discriminate.
  simpl.
  repeat (match goal with
          | |- context [properties feature !! ?k] =>
              let H := fresh in
              destruct (Hkeys k) as [? H]; [set_solver | rewrite H; simpl]
          end).
  eexists. reflexivity.
Qed.

Lemma well_formed_all_values fs :
  Forall well_formed fs -> exists vs, all_values py_format fs = Ok vs.
Proof.
  induction 1 as [| feature rest Hf _ [more IH]]; simpl.
  - eexists. reflexivity.
  - destruct (well_formed_values feature Hf) as [vals ->]. rewrite IH. simpl.
    eexists. reflexivity.
Qed.

(** C7: the cell replaces the table.  Run on the store a first run left,
    it gives what the first run gave; a table of the same name that was
    there before has no effect on the outcome; and after a run that
    returned, the table has as many rows as the collection has features and
    a second run leaves the very same store. *)
Theorem load_replaces data store :
  load py_format data (snd (load py_format data store))
  = load py_format data store /\
  (forall old : table value,
      fst (load py_format data (<[table_name := old]> store))
      = fst (load py_format data store)) /\
  (forall (old : table value) store',
      load py_format data store = (Done, store') ->
      load py_format data (<[table_name := old]> store) = (Done, store') /\
      load py_format data store' = (Done, store') /\
      exists tb, store' !! table_name = Some tb /\
                 length (rows tb) = length (features data)).
Proof.
  rewrite !load_spec.
  destruct (all_values py_format (features data)) as [vs | e] eqn:Hvs.
  - simpl. rewrite insert_insert_eq. split; [reflexivity |].
    split.
    + intros old. rewrite load_spec, Hvs. reflexivity.
    + intros old store' H. injection H as <-.
      rewrite !load_spec, Hvs, !insert_insert_eq.
      split; [reflexivity |]. split; [reflexivity |].
      eexists. split; [apply lookup_insert_eq |].
      simpl. apply all_values_length. exact Hvs.
  - simpl. split; [reflexivity |]. split.
    + intros old. rewrite load_spec, Hvs. reflexivity.
    + intros old store' H. discriminate.
Qed.

(** C8: for a collection of well-formed features the cell returns, and the
    table then holds one row per feature, in the order of the features: row
    [i] is the list of values of feature [i]. *)
Theorem load_one_row_per_feature data store :
  Forall well_formed (features data) ->
  exists tb,
    load py_format data store = (Done, <[table_name := tb]> store) /\
    columns tb = table_columns /\
    length (rows tb) = length (features data) /\
    forall i : nat,
      feature_values py_format <$> features data !! i = Ok <$> rows tb !! i.
Proof.
  intros Hwf.
  destruct (well_formed_all_values _ Hwf) as [vs Hvs].
  exists (mkTable table_columns vs). rewrite load_spec, Hvs.
  split; [reflexivity |]. split; [reflexivity |]. split.
  - simpl. apply all_values_length. exact Hvs.
  - simpl. apply all_values_lookup. exact Hvs.
Qed.

(** C10: a feature is stored by the names of its properties.  In the row
    of feature [i] the columns name, address, city, state, zip_code, county
    and directions hold the properties NAME, ADDRESS, CITY, STATE, ZIP,
    COUNTY and DIRECTIONS, and the column location holds the geometry of the
    text SRID=4326;POINT(lon lat) made from the two coordinates. *)
Theorem load_maps_by_name data store store' (i : nat) feature
    (lon lat zip_code state name address county city directions : value) :
  load py_format data store = (Done, store') ->
  features data !! i = Some feature ->
  coordinates feature = [lon; lat] ->
  properties feature !! "ZIP" = Some zip_code ->
  properties feature !! "STATE" = Some state ->
  properties feature !! "NAME" = Some name ->
  properties feature !! "ADDRESS" = Some address ->
  properties feature !! "COUNTY" = Some county ->
  properties feature !! "CITY" = Some city ->
  properties feature !! "DIRECTIONS" = Some directions ->
  exists tb,
    store' !! table_name = Some tb /\
    cell tb i "location"
    = Some (GeomFromText
              ("SRID=4326;POINT(" +:+ py_format lon +:+ " " +:+ py_format lat +:+ ")")) /\
    cell tb i "name" = Some (Param name) /\
    cell tb i "address" = Some (Param address) /\
    cell tb i "city" = Some (Param city) /\
    cell tb i "state" = Some (Param state) /\
    cell tb i "zip_code" = Some (Param zip_code) /\
    cell tb i "county" = Some (Param county) /\
    cell tb i "directions" = Some (Param directions).
Proof.
  intros Hload Hi Hc Hzip Hstate Hname Haddr Hcounty Hcity Hdir.
  rewrite load_spec in Hload.
  destruct (all_values py_format (features data)) as [vs | e] eqn:Hvs;
    [| discriminate].
  injection Hload as <-.
  exists (mkTable table_columns vs). split; [apply lookup_insert_eq |].
  pose proof (all_values_lookup _ _ Hvs i) as Hrow.
  rewrite Hi in Hrow. simpl in Hrow.
  unfold feature_values, unpack2, getitem in Hrow.
  rewrite Hc, Hzip, Hstate, Hname, Haddr, Hcounty, Hcity, Hdir in Hrow.
  simpl in Hrow.
  destruct (vs !! i) as [row |] eqn:Hvi; [| discriminate].
  injection Hrow as <-.
  unfold cell. simpl. rewrite Hvi. repeat split; reflexivity.
Qed.

End LoaderFacts.

Section LoaderWitnesses.

Import Py Loader.

Lemma load_replaces_witness :
  load format_text sample_data
    (<[table_name := mkTable [] []]> (∅ : gmap string (table string)))
  = (Done, snd (load format_text sample_data ∅)) /\
  exists tb, snd (load format_text sample_data ∅) !! table_name = Some tb /\
             length (rows tb) = 2%nat.
Proof.
  destruct (proj2 (proj2 (load_replaces format_text sample_data ∅))
              (mkTable [] []) (snd (load format_text sample_data ∅)))
    as (H1 & _ & H3).
  - vm_compute. reflexivity.
  - split; [exact H1 | exact H3].
Defined.

Lemma load_one_row_per_feature_witness :
  exists tb,
    load format_text sample_data ∅ = (Done, <[table_name := tb]> ∅) /\
    columns tb = table_columns /\
    length (rows tb) = length (features sample_data) /\
    forall i : nat,
      feature_values format_text <$> features sample_data !! i
      = Ok <$> rows tb !! i.
Proof.
  apply (load_one_row_per_feature format_text sample_data ∅).
  repeat constructor; simpl; intros key Hkey;
    repeat (apply elem_of_cons in Hkey as [-> | Hkey];
            [vm_compute; eexists; reflexivity |]);
    apply elem_of_nil in Hkey; contradiction.
Defined.

Lemma load_maps_by_name_witness :
  exists tb,
    snd (load format_text sample_data ∅) !! table_name = Some tb /\
    cell tb 1 "location"
    = Some (GeomFromText "SRID=4326;POINT(-95.9345 41.2565)") /\
    cell tb 1 "name" = Some (Param "EMCA") /\
    cell tb 1 "address" = Some (Param "2 FARNAM ST") /\
    cell tb 1 "city" = Some (Param "OMAHA") /\
    cell tb 1 "state" = Some (Param "NE") /\
    cell tb 1 "zip_code" = Some (Param "68102") /\
    cell tb 1 "county" = Some (Param "DOUGLAS") /\
    cell tb 1 "directions" = Some (Param "WEST").
Proof.
  apply (load_maps_by_name format_text sample_data ∅
           (snd (load format_text sample_data ∅)) 1 omaha
           "-95.9345" "41.2565" "68102" "NE" "EMCA" "2 FARNAM ST" "DOUGLAS"
           "OMAHA" "WEST");
    vm_compute; reflexivity.
Defined.

End LoaderWitnesses.

(** * Further properties of the cells *)

(** ** Projector: the helpers beyond the five statements above *)

Section ProjectorMore.

Import Projector.
Local Open Scope R_scope.

Lemma sgn_neg (r : R) : r < 0 -> sgn r = Neg.
Proof.
  intros H. unfold sgn.
  destruct (Rlt_dec 0 r) as [H0 | _]; [lra |].
  destruct (Rlt_dec r 0); [reflexivity | contradiction].
Qed.

(** The tangent at the mirrored latitude is the inverse of the tangent. *)
Lemma tan_mirror (b : R) :
  0 < b < PI / 2 -> tan (PI / 2 - b) = / tan b.
Proof.
  intros [Hlo Hhi]. unfold tan. rewrite sin_shift, cos_shift.
  assert (0 < sin b) by (apply sin_gt_0; pose proof PI_RGT_0; lra).
  assert (0 < cos b) by (apply cos_gt_0; lra).
  field. split; lra.
Qed.

(** The logarithm is not a number for a latitude beyond a pole, on either
    side, up to 270 degrees. *)
Lemma flog_ftan_beyond_pole (lat : R) :
  90 < lat < 270 \/ -270 < lat < -90 ->
  flog (ftan (Num (PI / 4 + lat * (PI / 180) / 2))) = NaN.
Proof.
  intros Hlat. pose proof PI_RGT_0 as Hpi.
  set (b := PI / 4 + lat * (PI / 180) / 2).
  assert (Hcos : cos b <> 0 /\ tan b < 0).
  { destruct Hlat as [[Hlo Hhi] | [Hlo Hhi]].
    - assert (PI / 2 < b < PI) as [Hb1 Hb2] by (unfold b; split; nra).
      assert (cos b < 0) by (apply cos_lt_0; lra).
      assert (0 < sin b) by (apply sin_gt_0; lra).
      split; [lra |]. unfold tan, Rdiv.
      assert (/ cos b < 0) by (apply Rinv_lt_0_compat; assumption).
      nra.
    - assert (- (PI / 2) < b < 0) as [Hb1 Hb2] by (unfold b; split; nra).
      split; [apply Rgt_not_eq, cos_gt_0; lra | apply tan_lt_0; lra]. }
  destruct Hcos as [Hc Ht].
  rewrite ftan_num by exact Hc. simpl. rewrite (sgn_neg _ Ht). reflexivity.
Qed.

(** X1: [wkt_to_y] of a text that parses to the point (lon, lat), with the
    latitude strictly between the poles, is the reference Mercator ordinate
    of the latitude when lon is not zero, and is not a number when lon is
    zero. *)
Theorem wkt_to_y_of_point (wkt_loads : string -> Point) (pt : string)
    (lon lat : R) :
  wkt_loads pt = mkPoint (Num lon) (Num lat) ->
  -90 < lat < 90 ->
  (lon <> 0 ->
   wkt_to_y wkt_loads pt = Num (mercator_y_reference (lat * (PI / 180)))) /\
  (lon = 0 -> wkt_to_y wkt_loads pt = NaN).
Proof.
  intros Hpt Hlat. unfold wkt_to_y. rewrite Hpt. simpl px. simpl py. split.
  - intros Hlon. rewrite lat_to_mercy_value by assumption. reflexivity.
  - intros ->. apply lat_to_mercy_at_zero.
Qed.

Lemma wkt_to_y_of_point_witness :
  (1 <> 0 ->
   wkt_to_y loads_const "POINT(1 2)"
   = Num (mercator_y_reference (2 * (PI / 180)))) /\
  (1 = 0 -> wkt_to_y loads_const "POINT(1 2)" = NaN).
Proof.
  apply (wkt_to_y_of_point loads_const "POINT(1 2)" 1 2); [reflexivity | lra].
Defined.

(** X2: for a longitude other than zero, mirroring the latitude at the
    equator negates the ordinate. *)
Theorem lat_to_mercy_odd (lon lat : R) :
  lon <> 0 -> -90 < lat < 90 ->
  exists y : R,
    lat_to_mercy (Num lon) (Num lat) = Num y /\
    lat_to_mercy (Num lon) (Num (- lat)) = Num (- y).
Proof.
  intros Hlon Hlat.
  rewrite !lat_to_mercy_value by (assumption || lra).
  eexists. split; [reflexivity |]. f_equal.
  destruct (tan_argument_range lat Hlat) as [Hlo Hhi].
  replace (PI / 4 + - lat * (PI / 180) / 2)
    with (PI / 2 - (PI / 4 + lat * (PI / 180) / 2)) by lra.
  rewrite tan_mirror by lra.
  rewrite ln_Rinv by (apply tan_gt_0; lra). lra.
Qed.

Lemma lat_to_mercy_odd_witness :
  exists y : R,
    lat_to_mercy (Num 2) (Num 30) = Num y /\
    lat_to_mercy (Num 2) (Num (- 30)) = Num (- y).
Proof. apply (lat_to_mercy_odd 2 30); lra. Defined.

(** X3: for a longitude other than zero, a northern latitude has a
    positive ordinate and a southern latitude a negative one. *)
Theorem lat_to_mercy_hemisphere (lon lat : R) :
  lon <> 0 ->
  (0 < lat < 90 -> flt (Num 0) (lat_to_mercy (Num lon) (Num lat))) /\
  (-90 < lat < 0 -> flt (lat_to_mercy (Num lon) (Num lat)) (Num 0)).
Proof.
  intros Hlon. pose proof PI_RGT_0 as Hpi. split; intros Hlat.
  - rewrite lat_to_mercy_value by (assumption || lra). simpl.
    destruct (tan_argument_range lat ltac:(lra)) as [Hlo Hhi].
    assert (1 < tan (PI / 4 + lat * (PI / 180) / 2)) as Ht.
    { rewrite <- tan_PI4. apply tan_increasing; [lra | nra | lra]. }
    assert (0 < ln (tan (PI / 4 + lat * (PI / 180) / 2))).
    { rewrite <- ln_1. apply ln_increasing; lra. }
    nra.
  - rewrite lat_to_mercy_value by (assumption || lra). simpl.
    destruct (tan_argument_range lat ltac:(lra)) as [Hlo Hhi].
    assert (tan (PI / 4 + lat * (PI / 180) / 2) < 1) as Ht.
    { rewrite <- tan_PI4. apply tan_increasing; [lra | nra | lra]. }
    assert (ln (tan (PI / 4 + lat * (PI / 180) / 2)) < 0).
    { rewrite <- ln_1. apply ln_increasing; [apply tan_gt_0; lra | lra]. }
    nra.
Qed.

Lemma lat_to_mercy_hemisphere_witness :
  flt (Num 0) (lat_to_mercy (Num (-3)) (Num 41)) /\
  flt (lat_to_mercy (Num (-3)) (Num (-41))) (Num 0).
Proof.
  split.
  - apply (proj1 (lat_to_mercy_hemisphere (-3) 41 ltac:(lra))). lra.
  - apply (proj2 (lat_to_mercy_hemisphere (-3) (-41) ltac:(lra))). lra.
Defined.

(** X4: [lon_to_mercx] is strictly increasing in the longitude, so two
    different longitudes never share a planar x. *)
Theorem lon_to_mercx_increasing (lon1 lon2 : R) :
  lon1 < lon2 -> flt (lon_to_mercx (Num lon1)) (lon_to_mercx (Num lon2)).
Proof.
  intros Hlt. unfold lon_to_mercx, EARTH_RADIUS, radians. simpl.
  pose proof PI_RGT_0 as Hpi. nra.
Qed.

Lemma lon_to_mercx_increasing_witness :
  flt (lon_to_mercx (Num (-180))) (lon_to_mercx (Num 180)).
Proof. apply (lon_to_mercx_increasing (-180) 180). lra. Defined.

(** X5: in exact real arithmetic (no rounding), a latitude beyond a pole
    (between 90 and 270 degrees on either side, as when the two coordinates
    are swapped) makes the tangent negative, its logarithm not a number, and
    so the ordinate not a number, whatever the longitude is. *)
Theorem lat_to_mercy_beyond_pole (lon : float64) (lat : R) :
  90 < lat < 270 \/ -270 < lat < -90 ->
  lat_to_mercy lon (Num lat) = NaN.
Proof.
  intros Hlat. unfold lat_to_mercy. rewrite tan_argument.
  rewrite (flog_ftan_beyond_pole lat Hlat).
  unfold pi. rewrite fdiv_num by apply PI_neq_0. reflexivity.
Qed.

Lemma lat_to_mercy_beyond_pole_witness :
  lat_to_mercy (Num 41.8781) (Num (-95.9345)) = NaN.
Proof. apply (lat_to_mercy_beyond_pole (Num 41.8781) (-95.9345)). lra. Defined.

(** X6: at the south pole (latitude -90) the tangent is zero and its
    logarithm minus infinity: for every longitude other than zero, of either
    sign, the ordinate is minus infinity. *)
Theorem lat_to_mercy_south_pole (lon : R) :
  lon <> 0 -> lat_to_mercy (Num lon) (Num (-90)) = NInf.
Proof.
  intros Hlon. pose proof PI_RGT_0 as Hpi.
  unfold lat_to_mercy. rewrite tan_argument.
  replace (PI / 4 + -90 * (PI / 180) / 2) with 0 by field.
  rewrite ftan_num by (rewrite cos_0; lra).
  rewrite tan_0. simpl flog. rewrite sgn_zero.
  unfold pi. rewrite fdiv_num by lra.
  assert (Hc : sgn (180 / PI) = Pos).
  { apply sgn_pos. apply Rdiv_lt_0_compat; lra. }
  simpl fmul at 2. rewrite Hc. simpl signed_inf.
  unfold lon_to_mercx, EARTH_RADIUS, radians. simpl.
  destruct (Rlt_dec lon 0) as [Hneg | Hpos].
  - rewrite sgn_neg by nra. simpl.
    destruct (Rlt_dec lon 0); [reflexivity | contradiction].
  - rewrite sgn_pos by nra. simpl.
    destruct (Rlt_dec lon 0); [contradiction | reflexivity].
Qed.

Lemma lat_to_mercy_south_pole_witness :
  lat_to_mercy (Num 12) (Num (-90)) = NInf.
Proof. apply (lat_to_mercy_south_pole 12). lra. Defined.

(** X7: the ordinate is not a number as soon as the longitude is not
    finite, or the latitude is not a number. *)
Theorem lat_to_mercy_not_finite :
  (forall lon lat : float64,
      lon = PInf \/ lon = NInf \/ lon = NaN -> lat_to_mercy lon lat = NaN) /\
  (forall lon : float64, lat_to_mercy lon NaN = NaN).
Proof.
  pose proof PI_RGT_0 as Hpi.
  assert (Hr : sgn (PI / 180) = Pos) by (apply sgn_pos; lra).
  assert (He : sgn 6378137 = Pos) by (apply sgn_pos; lra).
  split.
  - intros lon lat Hlon. rewrite mercy_dividend_spec. unfold mercy_dividend.
    set (t := fmul (fdiv (Num 180) pi) _).
    destruct Hlon as [-> | [-> | ->]].
    + unfold lon_to_mercx, EARTH_RADIUS, radians. simpl fmul at 2.
      rewrite Hr. simpl. rewrite He. simpl.
      destruct t as [r | | |]; simpl; try reflexivity.
      destruct (sgn r); reflexivity.
    + unfold lon_to_mercx, EARTH_RADIUS, radians. simpl fmul at 2.
      rewrite Hr. simpl. rewrite He. simpl.
      destruct t as [r | | |]; simpl; try reflexivity.
      destruct (sgn r); reflexivity.
    + destruct (fmul t (lon_to_mercx NaN)); reflexivity.
  - intros lon. unfold lat_to_mercy, pi.
    rewrite !fdiv_num by lra. simpl. reflexivity.
Qed.

Lemma lat_to_mercy_not_finite_witness :
  lat_to_mercy PInf (Num 10) = NaN.
Proof.
  apply (proj1 lat_to_mercy_not_finite PInf (Num 10)). left. reflexivity.
Defined.

End ProjectorMore.

(** ** Fetcher: what a run leaves behind for the next one *)

Section FetcherMore.

Import Py Fetcher.

Lemma download_skip (E : env) (url fpath : string) (w : world) :
  isfile w fpath = true ->
  download E url fpath w
  = (Done, emit (Printed (repr fpath +:+ " already exists: skipping download." +:+ nl)) w).
Proof. intros H. unfold download. rewrite H. reflexivity. Qed.

Lemma isfile_emit (e : event) (w : world) (path : string) :
  isfile (emit e w) path = isfile w path.
Proof. reflexivity. Qed.

Lemma isfile_lookup (w : world) (path : string) (c : bytes) :
  files w !! path = Some (File c) -> isfile w path = true.
Proof. intros H. unfold isfile. rewrite H. reflexivity. Qed.

(** The files after a run, path by path. *)
Lemma download_frame (E : env) (url fpath : string) (w : world) (p : string) :
  p <> fpath ->
  files (snd (download E url fpath w)) !! p = files w !! p.
Proof.
  intros Hp. unfold download.
  destruct (isfile w fpath); [reflexivity |].
  destruct (http_get E url) as [body |]; [| reflexivity].
  unfold open_wb. simpl.
  destruct (open_fails E fpath); [reflexivity |].
  destruct (files w !! fpath) as [[c |] |]; try reflexivity;
    destruct (write_fails E fpath body); simpl;
    rewrite !lookup_insert_ne by congruence; reflexivity.
Qed.

(** X8: on a file system of regular files and directories (no symbolic
    link, no special file), a run never touches a path other than its own,
    and never changes or removes a regular file that is already there, its
    own path included. *)
Theorem download_keeps_files (E : env) (url fpath : string) (w : world) :
  (forall p : string, p <> fpath ->
      files (snd (download E url fpath w)) !! p = files w !! p) /\
  (forall (p : string) (c : bytes), files w !! p = Some (File c) ->
      files (snd (download E url fpath w)) !! p = Some (File c)).
Proof.
  split.
  - intros p Hp. apply download_frame. exact Hp.
  - intros p c Hc. destruct (decide (p = fpath)) as [-> | Hp].
    + rewrite download_skip by (eapply isfile_lookup; exact Hc). exact Hc.
    + rewrite download_frame by exact Hp. exact Hc.
Qed.

Lemma download_keeps_files_witness :
  files (snd (download env_online url "other.txt" world_with_file)) !! fpath
  = Some (File body_sample) /\
  files (snd (download env_online url fpath world_with_file)) !! fpath
  = Some (File body_sample).
Proof.
  split.
  - rewrite (proj1 (download_keeps_files env_online url "other.txt"
                      world_with_file) fpath); [reflexivity | discriminate].
  - apply (proj2 (download_keeps_files env_online url fpath world_with_file)).
    reflexivity.
Defined.





(** X11: a failed network retrieval leaves the path absent, so that a
    later run retries, and with a working environment stores the whole
    body. *)
Theorem download_retry_after_error
    (E E' : env) (url fpath : string) (w : world) (body : bytes) :
  files w !! fpath = None ->
  http_get E url = None ->
  http_get E' url = Some body ->
  open_fails E' fpath = false ->
  write_fails E' fpath body = None ->
  fst (download E url fpath w) = Raised download_error /\
  files (snd (download E url fpath w)) !! fpath = None /\
  fst (download E' url fpath (snd (download E url fpath w))) = Done /\
  files (snd (download E' url fpath (snd (download E url fpath w)))) !! fpath
  = Some (File body) /\
  http_gets (trace (snd (download E' url fpath (snd (download E url fpath w)))))
  = S (S (http_gets (trace w))).
Proof.
  intros Hnew Hget Hget' Hopen Hwrite.
  assert (Hrun : download E url fpath w
                 = (Raised download_error,
                    emit (HttpGet url)
                      (emit (Printed ("Downloading data from " +:+ repr url +:+ "..."))
                         w))).
  { unfold download, isfile. rewrite Hnew, Hget. reflexivity. }
  rewrite Hrun. simpl fst. simpl snd.
  split; [reflexivity |]. split; [exact Hnew |].
  unfold download, isfile, open_wb. simpl. rewrite Hnew, Hget', Hopen. simpl.
  rewrite Hwrite. simpl.
  split; [reflexivity |]. split; [apply lookup_insert_eq |].
  rewrite !http_gets_app. unfold http_gets at 2 3 4 5 6 7 8 9. simpl. lia.
Qed.

Lemma download_retry_after_error_witness :
  fst (download env_offline url fpath world_empty) = Raised download_error /\
  files (snd (download env_offline url fpath world_empty)) !! fpath = None /\
  fst (download env_online url fpath
         (snd (download env_offline url fpath world_empty))) = Done /\
  files (snd (download env_online url fpath
                (snd (download env_offline url fpath world_empty)))) !! fpath
  = Some (File body_sample) /\
  http_gets (trace (snd (download env_online url fpath
                           (snd (download env_offline url fpath world_empty)))))
  = S (S (http_gets (trace world_empty))).
Proof.
  apply (download_retry_after_error env_offline env_online url fpath
           world_empty body_sample); reflexivity.
Defined.

End FetcherMore.

(** ** Loader: exceptions, and what a run leaves in the store *)

Section LoaderMore.

Import Py Loader.

Context {value : Type} (py_format : value -> string).

Implicit Types (feature : Feature value) (fs : list (Feature value)).
Implicit Types (data : FeatureCollection value).
Implicit Types (db store : gmap string (table value)).

Lemma feature_values_well_formed feature (vals : list (sqlval value)) :
  feature_values py_format feature = Ok vals -> well_formed feature.
Proof.
  unfold feature_values, unpack2, getitem.
  destruct (coordinates feature) as [| lon [| lat [| ? ?]]] eqn:Hc; simpl;
    try discriminate.
  destruct (properties feature !! "ZIP") eqn:H1; simpl; [| discriminate].
  destruct (properties feature !! "STATE") eqn:H2; simpl; [| discriminate].
  destruct (properties feature !! "NAME") eqn:H3; simpl; [| discriminate].
  destruct (properties feature !! "ADDRESS") eqn:H4; simpl; [| discriminate].
  destruct (properties feature !! "COUNTY") eqn:H5; simpl; [| discriminate].
  destruct (properties feature !! "CITY") eqn:H6; simpl; [| discriminate].
  destruct (properties feature !! "DIRECTIONS") eqn:H7; simpl; [| discriminate].
  intros _. split; [rewrite Hc; reflexivity |].
  intros key Hkey.
  repeat (apply elem_of_cons in Hkey as [-> | Hkey]; [eexists; eassumption |]).
  apply elem_of_nil in Hkey. contradiction.
Qed.

Lemma all_values_well_formed fs (vs : list (list (sqlval value))) :
  all_values py_format fs = Ok vs -> Forall well_formed fs.
Proof.
  revert vs. induction fs as [| feature rest IH]; intros vs; simpl.
  - intros _. constructor.
  - destruct (feature_values py_format feature) as [vals | e] eqn:Hv; simpl;
      [| discriminate].
    destruct (all_values py_format rest) as [more | e]; simpl;
      [| discriminate].
    intros _. constructor.
    + eapply feature_values_well_formed. exact Hv.
    + eapply IH. reflexivity.
Qed.

Lemma all_values_first_bad (good rest : list (Feature value)) bad (e : exn) :
  Forall well_formed good ->
  feature_values py_format bad = Raise e ->
  all_values py_format (good ++ bad :: rest) = Raise e.
Proof.
  intros Hgood Hbad. induction Hgood as [| feature good Hf _ IH]; simpl.
  - rewrite Hbad. reflexivity.
  - destruct (well_formed_values py_format feature Hf) as [vals ->].
    simpl. rewrite IH. reflexivity.
Qed.

(** X12: when the cell returns, every feature had a coordinate pair and
    the seven properties; when it raises, nothing is committed and the
    store is what it was. *)
Theorem load_all_or_nothing data store :
  (fst (load py_format data store) = Done ->
   Forall well_formed (features data)) /\
  (fst (load py_format data store) <> Done ->
   snd (load py_format data store) = store).
Proof.
  rewrite load_spec.
  destruct (all_values py_format (features data)) as [vs | e] eqn:Hvs;
    simpl.
  - split; [| intros H; contradiction].
    intros _. eapply all_values_well_formed. exact Hvs.
  - split; [discriminate | reflexivity].
Qed.

(** X13: a feature with a coordinate pair and a missing property raises
    [KeyError] with the first missing key in the order the cell reads them:
    ZIP, STATE, NAME, ADDRESS, COUNTY, CITY, DIRECTIONS. *)
Theorem feature_values_key_error feature (key : string) :
  length (coordinates feature) = 2%nat ->
  first_missing (properties feature) = Some key ->
  feature_values py_format feature = Raise (KeyError key).
Proof.
  intros Hlen. unfold feature_values, unpack2, getitem, first_missing.
  destruct (coordinates feature) as [| lon [| lat [| ? ?]]]; simpl in Hlen;
    try discriminate.
  simpl.
  repeat (match goal with
          | |- context [properties feature !! ?k] =>
              destruct (properties feature !! k); simpl;
              [| intros [= <-]; reflexivity]
          end).
  discriminate.
Qed.

(** X14: a feature whose coordinates are not a pair raises [ValueError] at
    the unpacking, before any property is read, whatever its properties
    are. *)
Theorem feature_values_value_error feature :
  length (coordinates feature) <> 2%nat ->
  exists msg, feature_values py_format feature = Raise (ValueError msg).
Proof.
  intros Hlen. unfold feature_values, unpack2.
  destruct (coordinates feature) as [| lon [| lat [| ? ?]]]; simpl in *;
    try (eexists; reflexivity).
  contradiction.
Qed.

(** X15: the cell raises what the first feature that is not well-formed
    raises, whatever follows it, and the rows of the features before it are
    not committed. *)
Theorem load_first_bad_feature data store
    (good rest : list (Feature value)) bad (e : exn) :
  features data = good ++ bad :: rest ->
  Forall well_formed good ->
  feature_values py_format bad = Raise e ->
  load py_format data store = (Raised e, store).
Proof.
  intros Hdata Hgood Hbad. rewrite load_spec, Hdata.
  rewrite (all_values_first_bad good rest bad e Hgood Hbad). reflexivity.
Qed.

(** X16: the cell leaves every table but [fortune500] as it was. *)
Theorem load_keeps_other_tables data store (name : string) :
  name <> table_name ->
  snd (load py_format data store) !! name = store !! name.
Proof.
  intros Hname. rewrite load_spec.
  destruct (all_values py_format (features data)); simpl; [| reflexivity].
  apply lookup_insert_ne. congruence.
Qed.

(** X18: the values of a feature depend on its coordinates and on the seven
    properties the cell reads only: any other property is ignored. *)
Theorem feature_values_reads_seven_keys (f1 f2 : Feature value) :
  coordinates f1 = coordinates f2 ->
  (forall key, key ∈ read_order ->
     properties f1 !! key = properties f2 !! key) ->
  feature_values py_format f1 = feature_values py_format f2.
Proof.
  intros Hc Hp. unfold feature_values, getitem. rewrite Hc.
  rewrite (Hp "ZIP"), (Hp "STATE"), (Hp "NAME"), (Hp "ADDRESS"),
    (Hp "COUNTY"), (Hp "CITY"), (Hp "DIRECTIONS")
    by (unfold read_order; set_solver).
  reflexivity.
Qed.

(** X19: the last run that returns decides the store: what an earlier run,
    on any collection, did to the table is gone. *)
Theorem load_last_wins (first second : FeatureCollection value) store :
  fst (load py_format second store) = Done ->
  load py_format second (snd (load py_format first store))
  = load py_format second store.
Proof.
  rewrite !load_spec.
  destruct (all_values py_format (features second)) as [vs | e];
    [| discriminate].
  intros _.
  destruct (all_values py_format (features first)); simpl;
    [rewrite insert_insert_eq |]; reflexivity.
Qed.

(** X20: on an empty collection the cell returns and leaves the table with
    its eight columns and no row, whatever the table held before. *)
Theorem load_empty_collection store (old : table value) :
  load py_format (mkCollection []) (<[table_name := old]> store)
  = (Done, <[table_name := mkTable table_columns []]> store).
Proof.
  rewrite load_spec. simpl. rewrite insert_insert_eq. reflexivity.
Qed.

End LoaderMore.

Section LoaderMoreWitnesses.

Import Py Loader.

Lemma load_all_or_nothing_witness :
  snd (load format_text (mkCollection [chicago; nameless]) ∅) = ∅.
Proof.
  apply (proj2 (load_all_or_nothing format_text
                  (mkCollection [chicago; nameless]) ∅)).
  vm_compute. discriminate.
Defined.

Lemma feature_values_key_error_witness :
  feature_values format_text nameless = Raise (KeyError "NAME").
Proof.
  apply (feature_values_key_error format_text nameless "NAME");
    vm_compute; reflexivity.
Defined.

Lemma feature_values_value_error_witness :
  exists msg, feature_values format_text with_altitude = Raise (ValueError msg).
Proof.
  apply (feature_values_value_error format_text with_altitude).
  vm_compute. discriminate.
Defined.

Lemma load_first_bad_feature_witness :
  load format_text (mkCollection [chicago; nameless; with_altitude]) ∅
  = (Raised (KeyError "NAME"), ∅).
Proof.
  apply (load_first_bad_feature format_text
           (mkCollection [chicago; nameless; with_altitude]) ∅
           [chicago] [with_altitude] nameless (KeyError "NAME")).
  - reflexivity.
  - repeat constructor; simpl; intros key Hkey;
      repeat (apply elem_of_cons in Hkey as [-> | Hkey];
              [vm_compute; eexists; reflexivity |]);
      apply elem_of_nil in Hkey; contradiction.
  - vm_compute. reflexivity.
Defined.

Lemma load_keeps_other_tables_witness :
  snd (load format_text sample_data
         (<["cities" := mkTable [("name", Text)] []]> ∅)) !! "cities"
  = (<["cities" := mkTable [("name", Text)] []]>
       (∅ : gmap string (table string))) !! "cities".
Proof.
  apply (load_keeps_other_tables format_text sample_data
           (<["cities" := mkTable [("name", Text)] []]> ∅) "cities").
  discriminate.
Defined.

Lemma feature_values_reads_seven_keys_witness :
  feature_values format_text chicago_ranked
  = feature_values format_text chicago.
Proof.
  apply (feature_values_reads_seven_keys format_text chicago_ranked chicago).
  - reflexivity.
  - intros key Hkey. unfold read_order in Hkey.
    repeat (apply elem_of_cons in Hkey as [-> | Hkey];
            [vm_compute; reflexivity |]).
    apply elem_of_nil in Hkey. contradiction.
Defined.

Lemma load_last_wins_witness :
  load format_text sample_data
    (snd (load format_text (mkCollection [omaha]) ∅))
  = load format_text sample_data ∅.
Proof.
  apply (load_last_wins format_text (mkCollection [omaha]) sample_data ∅).
  vm_compute. reflexivity.
Defined.

End LoaderMoreWitnesses.
